(** * PostgresConnect: a pooled PostgreSQL client with string-built statements

    Shallow embedding of [psycopg_wrapper/PostgresConnect.py].

    The client talks to two external collaborators: the psycopg2 connection
    pool and the database behind a cursor.  Both are modelled as an
    environment: the pool is the list of answers its successive [getconn()]
    calls give, the database is a function from a statement to what
    [cursor.execute] does with it.  Every call the client makes on either
    collaborator is recorded, in order, in a trace. *)

From Stdlib Require Import String List ZArith Bool Lia DecimalString.
Import ListNotations.
Open Scope string_scope.
Open Scope Z_scope.

(** ** Python values *)

(** Parameter and column values. *)
Inductive value : Type :=
| VNone
| VBool (b : bool)
| VInt (z : Z)
| VStr (s : string).

Definition row := list value.

(** A [dict] keeps insertion order; [data.keys()] and [data.values()] walk
    it in that order. *)
Definition dict := list (string * value).

Definition keys (data : dict) : list string := map fst data.
Definition values (data : dict) : list value := map snd data.

(** The [where] argument: a tuple holding an SQL fragment, optionally
    followed by the list of its parameters. *)
Inductive where_t : Type :=
| Where1 (fragment : string)
| Where2 (fragment : string) (params : list value).

Definition where_len (w : where_t) : nat :=
  match w with Where1 _ => 1%nat | Where2 _ _ => 2%nat end.

(** [where[0]] *)
Definition where_0 (w : where_t) : string :=
  match w with Where1 f => f | Where2 f _ => f end.

(** The [order] argument: a tuple holding a column, optionally followed by a
    direction. *)
Inductive order_t : Type :=
| Order1 (column : string)
| Order2 (column : string) (direction : string).

(** Truth value of an optional string ([None] and [''] are false). *)
Definition truthy_str (s : option string) : bool :=
  match s with
  | Some (String _ _) => true
  | _ => false
  end.

(** Truth value of an optional integer ([None] and [0] are false). *)
Definition truthy_int (n : option Z) : bool :=
  match n with
  | Some z => negb (z =? 0)
  | None => false
  end.

(** ['%d' % n] *)
Definition fmt_d (n : Z) : string := NilZero.string_of_int (Z.to_int n).

(** [sep.join(l)] *)
Definition join (sep : string) (l : list string) : string := String.concat sep l.

(** ** Exceptions *)

Inductive exn : Type :=
| AttributeError (type_name attribute : string)
| InterfaceError (msg : string)
| PoolError (msg : string)
| DatabaseError (msg : string)
| RecursionError (msg : string).

(** ** Connections, pool and database *)

(** A pooled connection; [closed] is psycopg2's attribute, 0 when open. *)
Record Connection : Type := mkConnection {
  conn_id : nat;
  closed : Z
}.

Inductive cursor_factory : Type := DictCursor | NamedTupleCursor.

(** What one [connection_pool.getconn()] call does. *)
Inductive pool_resp : Type :=
| PoolConn (c : Connection)      (* hands out a connection *)
| PoolRaises (msg : string)      (* raises pool.PoolError *)
| OtherRaises (e : exn).         (* raises anything else *)

(** What [cursor.execute(query, params)] does: it raises, or it completes
    and leaves [description], the rows to fetch and [rowcount] on the
    cursor. *)
Inductive exec_resp : Type :=
| ExecRaises (e : exn)
| ExecOk (description : option (list string)) (rows : list row) (rowcount : Z).

(** Calls made on the pool and on the driver. [EvRollback] belongs to the
    driver's interface; the client has no call site for it. *)
Inductive event : Type :=
| EvGetconn (r : pool_resp)
| EvPutconn (c : Connection)
| EvAutocommit (c : Connection) (b : bool)
| EvCursor (c : Connection) (f : option cursor_factory)
| EvExecute (c : Connection) (query : string) (params : option (list value))
| EvCommit (c : Connection)
| EvRollback (c : Connection)
| EvFetchall (c : Connection)
| EvCursorClose (c : Connection).

Record World : Type := mkWorld {
  pool : list pool_resp;      (* answers of the coming getconn() calls *)
  trace : list event          (* calls made so far, oldest first *)
}.

(** An open cursor: the connection it was created on and what the last
    [execute] left on it. *)
Record Cursor : Type := mkCursor {
  cur_conn : Connection;
  cur_description : option (list string);
  cur_rows : list row;
  cur_rowcount : Z
}.

(** ** The client monad: state, exceptions, and a pending acquisition *)

(** [Pending] is a call that is still inside the acquisition loop when the
    pool's listed answers are used up. *)
Inductive result (A : Type) : Type :=
| Ret (a : A)
| Raise (e : exn)
| Pending.

Arguments Ret {A} a.
Arguments Raise {A} e.
Arguments Pending {A}.

Definition M (A : Type) : Type := World -> result A * World.

Definition ret {A} (a : A) : M A := fun w => (Ret a, w).

Definition raise {A} (e : exn) : M A := fun w => (Raise e, w).

Definition bind {A B} (m : M A) (k : A -> M B) : M B :=
  fun w =>
    match m w with
    | (Ret a, w') => k a w'
    | (Raise e, w') => (Raise e, w')
    | (Pending, w') => (Pending, w')
    end.

Declare Scope client_scope.
Delimit Scope client_scope with client.
Notation "x <- m ;; k" := (bind m (fun x => k))
  (at level 100, m at next level, right associativity) : client_scope.
Notation "m ;; k" := (bind m (fun _ => k))
  (at level 100, right associativity) : client_scope.
Open Scope client_scope.

Definition emit (ev : event) : M unit :=
  fun w => (Ret tt, {| pool := pool w; trace := (trace w ++ [ev])%list |}).

(** ** The client *)

Record PostgresConnect : Type := mkPostgresConnect {
  database : string;
  user : string;
  password : string;
  schema : string;
  host : string;
  port : Z;
  min_connection : Z;
  max_connection : Z;
  _cursor_factory : option cursor_factory
}.

(** [__init__], up to the creation of the pool. *)
Definition init (database username password schema host : string)
    (port min_connection max_connection : Z) (type_cursor : string)
  : PostgresConnect :=
  {| database := database;
     user := username;
     password := password;
     schema := schema;
     host := host;
     port := port;
     min_connection := min_connection;
     max_connection := max_connection;
     _cursor_factory :=
       match type_cursor with
       | EmptyString => None
       | _ => Some (if String.eqb type_cursor "dict" then DictCursor
                    else NamedTupleCursor)
       end |}.

(** *** Statement fragments *)

Definition _where (where_ : option where_t) : string :=
  match where_ with
  | Some w => if (0 <? where_len w)%nat then " WHERE " ++ where_0 w else ""
  | None => ""
  end.

Definition _order (order : option order_t) : string :=
  match order with
  | Some (Order1 col) => " ORDER BY " ++ col
  | Some (Order2 col dir) => (" ORDER BY " ++ col) ++ " " ++ dir
  | None => ""
  end.

Definition _limit (limit : option Z) : string :=
  match limit with
  | Some n => if truthy_int limit then " LIMIT " ++ fmt_d n else ""
  | None => ""
  end.

Definition _offset (offset : option Z) : string :=
  match offset with
  | Some n => if truthy_int offset then " OFFSET " ++ fmt_d n else ""
  | None => ""
  end.

Definition _returning (returning : option string) : string :=
  match returning with
  | Some r => if truthy_str returning then " RETURNING " ++ r else ""
  | None => ""
  end.

Definition _format_insert (data : dict) : string * string :=
  let cols := join "," (keys data) in
  let vals := join "," (map (fun _ => "%s") data) in
  (cols, vals).

Definition _format_update (data : dict) : string :=
  join "=%s," (keys data) ++ "=%s".

(** *** What [execute_query] hands back, and attribute access on it *)

(** [execute_query] returns either the list [cursor.fetchall()] gave or the
    constant [True]. *)
Inductive query_result : Type :=
| Rows (all_data : list row)
| PyTrue.

(** What the row helpers are written to return. *)
Inductive retval : Type :=
| OneRow (r : option row)      (* cursor.fetchone() *)
| AllRows (rs : list row)      (* cursor.fetchall() *)
| RowCount (n : Z).            (* cursor.rowcount *)

Definition type_name (r : query_result) : string :=
  match r with
  | Rows _ => "list"
  | PyTrue => "bool"
  end.

(** Neither [list] nor [bool] has an attribute called [fetchone],
    [fetchall] or [rowcount]: looking one up raises [AttributeError]. *)
Definition no_attribute {A} (obj : query_result) (name : string) : M A :=
  raise (AttributeError (type_name obj) name).

Definition get_fetchone (obj : query_result) : M retval := no_attribute obj "fetchone".
Definition get_fetchall (obj : query_result) : M retval := no_attribute obj "fetchall".
Definition get_rowcount (obj : query_result) : M retval := no_attribute obj "rowcount".

(** *** Connection acquisition *)

(** [_get_connection]: one [getconn()] per pool answer.  A closed handle, a
    [PoolError] and any other exception all lead to the same recursive
    call; an open connection is returned.  This is the run on a stack with
    room for every retry; [_get_connection_within] below counts the
    nesting. *)
Fixpoint _get_connection_from (answers : list pool_resp) (tr : list event)
  : result Connection * World :=
  match answers with
  | [] => (Pending, {| pool := []; trace := tr |})
  | r :: rest =>
      let tr' := (tr ++ [EvGetconn r])%list in
      match r with
      | PoolConn connection =>
          if negb (closed connection =? 0)
          then _get_connection_from rest tr'
          else (Ret connection, {| pool := rest; trace := tr' |})
      | PoolRaises _ => _get_connection_from rest tr'
      | OtherRaises _ => _get_connection_from rest tr'
      end
  end.

Definition _get_connection : M Connection :=
  fun w => _get_connection_from (pool w) (trace w).

(** [_get_connection] on a stack with room for [depth] nested calls of
    itself.  Every retry is a nested call: the one for a closed handle is
    made inside the [try] block, those for a [PoolError] and for any other
    exception inside the [except] clauses.  With no room left the call
    raises [RecursionError].  Raised by the nested call inside the [try]
    block it is caught by the bare [except:], whose own nested call is the
    answer of the frame; raised by a nested call inside an [except] clause
    it leaves the frame. *)
Fixpoint _get_connection_within (depth : nat) (answers : list pool_resp)
    (tr : list event) : result Connection * World :=
  match depth with
  | O =>
      (Raise (RecursionError "maximum recursion depth exceeded"),
       {| pool := answers; trace := tr |})
  | S depth' =>
      match answers with
      | [] => (Pending, {| pool := []; trace := tr |})
      | r :: rest =>
          let tr' := (tr ++ [EvGetconn r])%list in
          match r with
          | PoolConn connection =>
              if negb (closed connection =? 0)
              then match _get_connection_within depth' rest tr' with
                   | (Raise _, w') =>
                       _get_connection_within depth' (pool w') (trace w')
                   | answer => answer
                   end
              else (Ret connection, {| pool := rest; trace := tr' |})
          | PoolRaises _ => _get_connection_within depth' rest tr'
          | OtherRaises _ => _get_connection_within depth' rest tr'
          end
      end
  end.



Definition _put_connection (con : Connection) : M unit :=
  emit (EvPutconn con).

Definition _create_cursor (self : PostgresConnect) (connection : Connection)
  : M Cursor :=
  connection <- (if negb (closed connection =? 0)
                 then _get_connection
                 else ret connection) ;;
  match _cursor_factory self with
  | Some f =>
      emit (EvCursor connection (Some f)) ;;
      ret (mkCursor connection None [] (-1))
  | None =>
      emit (EvCursor connection None) ;;
      ret (mkCursor connection None [] (-1))
  end.

Definition _close_cursor (cursor : Cursor) : M unit :=
  emit (EvCursorClose (cur_conn cursor)).

Definition _close_cursor_connection (cursor : Cursor) (connection : Connection)
  : M unit :=
  _close_cursor cursor ;;
  _put_connection connection.

(** Truth value of a cursor's [description]: [None] and the empty sequence
    are false. *)
Definition truthy_description (description : option (list string)) : bool :=
  match description with
  | Some (_ :: _) => true
  | _ => false
  end.

(** [if cursor.description:] *)
Definition has_description (cursor : Cursor) : bool :=
  truthy_description (cur_description cursor).

Definition fetchall (cursor : Cursor) : M (list row) :=
  emit (EvFetchall (cur_conn cursor)) ;;
  ret (cur_rows cursor).

(** [connection.commit()]; psycopg2 refuses it on a closed connection. *)
Definition commit (connection : Connection) : M unit :=
  emit (EvCommit connection) ;;
  if negb (closed connection =? 0)
  then raise (InterfaceError "connection already closed")
  else ret tt.

(** [connection.autocommit = b] *)
Definition set_autocommit (connection : Connection) (b : bool) : M unit :=
  emit (EvAutocommit connection b).

Section Client.

(** [psycopg_wrapper.validator.is_crud]: the statement classifier the
    client imports. *)
Variable is_crud : string -> bool.

(** The database: what executing a statement with its parameters does. *)
Variable server : string -> option (list value) -> exec_resp.

(** [cursor.execute(query, params)] *)
Definition cursor_execute (cursor : Cursor) (query : string)
    (params : option (list value)) : M Cursor :=
  emit (EvExecute (cur_conn cursor) query params) ;;
  match server query params with
  | ExecRaises e => raise e
  | ExecOk description rows rowcount =>
      ret (mkCursor (cur_conn cursor) description rows rowcount)
  end.

Definition _execute_with_autocommit (self : PostgresConnect)
    (connection : Connection) (query : string)
    (params : option (list value)) : M query_result :=
  cursor <- _create_cursor self connection ;;
  cursor <- cursor_execute cursor query params ;;
  if has_description cursor then
    all_data <- fetchall cursor ;;
    _close_cursor_connection cursor connection ;;
    ret (Rows all_data)
  else
    _close_cursor_connection cursor connection ;;
    ret PyTrue.

Definition _execute_without_autocommit (self : PostgresConnect)
    (connection : Connection) (query : string)
    (params : option (list value)) : M query_result :=
  cursor <- _create_cursor self connection ;;
  cursor <- cursor_execute cursor query params ;;
  commit connection ;;
  if has_description cursor then
    all_data <- fetchall cursor ;;
    _close_cursor_connection cursor connection ;;
    ret (Rows all_data)
  else
    _close_cursor_connection cursor connection ;;
    ret PyTrue.

Definition execute_query (self : PostgresConnect) (query : string)
    (params : option (list value)) : M query_result :=
  connection <- _get_connection ;;
  if negb (is_crud query) then
    set_autocommit connection true ;;
    _execute_with_autocommit self connection query params
  else
    _execute_without_autocommit self connection query params.

(** *** Statement builders and helpers *)







Definition insert_sql (table : string) (data : dict)
    (returning : option string) : string :=
  let '(cols, vals) := _format_insert data in
  ("INSERT INTO " ++ table ++ " (" ++ cols ++ ") VALUES(" ++ vals ++ ")")
    ++ _returning returning.

Definition insert (self : PostgresConnect) (table : string) (data : dict)
    (returning : option string) : M retval :=
  cur <- execute_query self (insert_sql table data returning)
           (Some (values data)) ;;
  if truthy_str returning then get_fetchone cur else get_rowcount cur.

Definition select_sql (table : string) (fields : list string)
    (where_ : option where_t) (order : option order_t)
    (limit offset : option Z) : string :=
  ("SELECT " ++ join ", " fields ++ " FROM " ++ table)
    ++ _where where_
    ++ _order order
    ++ _limit limit
    ++ _offset offset.

Definition select (self : PostgresConnect) (table : string)
    (fields : list string) (where_ : option where_t)
    (order : option order_t) (limit offset : option Z) : M query_result :=
  execute_query self (select_sql table fields where_ order limit offset) None.

Definition update_sql (table : string) (data : dict)
    (where_ : option where_t) (returning : option string) : string :=
  ("UPDATE " ++ table ++ " SET " ++ _format_update data)
    ++ _where where_ ++ _returning returning.

(** [list(data.values()) + where[1] if where and len(where) > 1
    else list(data.values())] *)
Definition update_params (data : dict) (where_ : option where_t)
  : option (list value) :=
  match where_ with
  | Some (Where2 _ ps) => Some (values data ++ ps)%list
  | _ => Some (values data)
  end.

Definition update (self : PostgresConnect) (table : string) (data : dict)
    (where_ : option where_t) (returning : option string) : M retval :=
  cur <- execute_query self (update_sql table data where_ returning)
           (update_params data where_) ;;
  if truthy_str returning then get_fetchall cur else get_rowcount cur.

Definition delete_sql (table : string) (where_ : option where_t)
    (returning : option string) : string :=
  ("DELETE FROM " ++ table) ++ _where where_ ++ _returning returning.

(** [where[1] if where and len(where) > 1 else None] *)
Definition delete_params (where_ : option where_t) : option (list value) :=
  match where_ with
  | Some (Where2 _ ps) => Some ps
  | _ => None
  end.

Definition delete (self : PostgresConnect) (table : string)
    (where_ : option where_t) (returning : option string) : M retval :=
  cur <- execute_query self (delete_sql table where_ returning)
           (delete_params where_) ;;
  if truthy_str returning then get_fetchall cur else get_rowcount cur.

End Client.

(** ** The statement classifier *)

Module validator.

Definition is_space (a : Ascii.ascii) : bool :=
  let n := Ascii.nat_of_ascii a in
  ((n =? 32) || (n =? 9) || (n =? 10) || (n =? 13))%nat.

Definition upper_ascii (a : Ascii.ascii) : Ascii.ascii :=
  let n := Ascii.nat_of_ascii a in
  if ((97 <=? n) && (n <=? 122))%nat
  then Ascii.ascii_of_nat (n - 32)
  else a.

Fixpoint upper (s : string) : string :=
  match s with
  | EmptyString => EmptyString
  | String a rest => String (upper_ascii a) (upper rest)
  end.

Fixpoint skip_spaces (s : string) : string :=
  match s with
  | String a rest => if is_space a then skip_spaces rest else s
  | EmptyString => EmptyString
  end.

Fixpoint first_word (s : string) : string :=
  match s with
  | String a rest => if is_space a then EmptyString else String a (first_word rest)
  | EmptyString => EmptyString
  end.

(** Modelled from the spec: the classification looks at the statement's
    leading token only, without regard to case; here the first
    whitespace-delimited word, in upper case. *)
Definition leading_token (query : string) : string :=
  upper (first_word (skip_spaces query)).

(** Modelled from the spec: the fixed read-only allow-list, of which the
    spec names SELECT. *)
Definition read_only : list string := ["SELECT"].

(** Modelled from the spec: [psycopg_wrapper/validator.py], which defines
    [is_crud], is not among the sources.  The spec has a statement
    treated as mutating (explicit commit) unless its first keyword
    matches, case-insensitively, a fixed read-only allow-list (SELECT);
    the classification looks at the leading token only. *)
Definition is_crud (query : string) : bool :=
  negb (existsb (String.eqb (leading_token query)) read_only).

End validator.

(** ** Observations on a trace *)

(** Connections the pool handed out. *)
Fixpoint acquired (tr : list event) : list Connection :=
  match tr with
  | EvGetconn (PoolConn c) :: tr' => c :: acquired tr'
  | _ :: tr' => acquired tr'
  | [] => []
  end.

(** Connections given back with [putconn]. *)
Fixpoint returned (tr : list event) : list Connection :=
  match tr with
  | EvPutconn c :: tr' => c :: returned tr'
  | _ :: tr' => returned tr'
  | [] => []
  end.

(** Statements handed to [cursor.execute], with their parameters. *)
Fixpoint executed (tr : list event) : list (string * option (list value)) :=
  match tr with
  | EvExecute _ q p :: tr' => (q, p) :: executed tr'
  | _ :: tr' => executed tr'
  | [] => []
  end.

Definition is_rollback (ev : event) : bool :=
  match ev with EvRollback _ => true | _ => false end.


Definition is_getconn (ev : event) : bool :=
  match ev with EvGetconn _ => true | _ => false end.

Definition Connection_eqb (a b : Connection) : bool :=
  ((conn_id a =? conn_id b)%nat && (closed a =? closed b))%bool.

(** How many times [c] occurs in a list of connections. *)
Definition times (c : Connection) (l : list Connection) : nat :=
  length (filter (Connection_eqb c) l).

(** A pool answer that makes [_get_connection] try again. *)
Definition retried (r : pool_resp) : bool :=
  match r with
  | PoolConn c => negb (closed c =? 0)
  | PoolRaises _ => true
  | OtherRaises _ => true
  end.

(** An empty trace in front of the given pool answers. *)
Definition start (answers : list pool_resp) : World :=
  {| pool := answers; trace := [] |}.

Definition is_ret {A} (r : result A) : bool :=
  match r with Ret _ => true | _ => false end.

(** Does the pool ever hand out an open connection? *)
Definition yields_open (answers : list pool_resp) : bool :=
  existsb (fun r => negb (retried r)) answers.

(** ** What a run of [execute_query] is expected to look like *)

(** The value [execute_query] ends with, given the database's answer. *)
Definition outcome (r : exec_resp) : result query_result :=
  match r with
  | ExecRaises e => Raise e
  | ExecOk d rows _ => Ret (if truthy_description d then Rows rows else PyTrue)
  end.

(** Fetching (when there are columns), closing the cursor and giving the
    connection back. *)
Definition release (c : Connection) (d : option (list string)) : list event :=
  if truthy_description d
  then [EvFetchall c; EvCursorClose c; EvPutconn c]
  else [EvCursorClose c; EvPutconn c].

(** A run in autocommit mode: autocommit is switched on, then the statement
    runs; no commit is issued. *)
Definition autocommit_run (self : PostgresConnect) (c : Connection)
    (q : string) (p : option (list value)) (r : exec_resp) : list event :=
  ([EvAutocommit c true; EvCursor c (_cursor_factory self); EvExecute c q p]
   ++ match r with
      | ExecRaises _ => []
      | ExecOk d _ _ => release c d
      end)%list.

(** A run with an explicit commit: the statement runs and, once it has
    completed, [commit()] follows at once. *)
Definition committed_run (self : PostgresConnect) (c : Connection)
    (q : string) (p : option (list value)) (r : exec_resp) : list event :=
  ([EvCursor c (_cursor_factory self); EvExecute c q p]
   ++ match r with
      | ExecRaises _ => []
      | ExecOk d _ _ => EvCommit c :: release c d
      end)%list.

(** ** Concrete environments used in the examples below *)

Definition client : PostgresConnect :=
  init "shop" "app" "secret" "public" "127.0.0.1" 5432 1 20 "".

Definition open_conn (n : nat) : Connection := mkConnection n 0.
Definition dead_conn (n : nat) : Connection := mkConnection n 1.

(** A database on which every statement affects one row and produces no
    columns. *)
Definition no_columns (_ : string) (_ : option (list value)) : exec_resp :=
  ExecOk None [] 1.

(** A database on which every statement produces the single row [(7,)] under
    the column [id]. *)
Definition one_row_back (_ : string) (_ : option (list value)) : exec_resp :=
  ExecOk (Some ["id"]) [[VInt 7]] 1.



(** ** Further observations *)

(** The characters [%] and [s]. *)
Definition percent_sign : Ascii.ascii := Ascii.ascii_of_nat 37.
Definition letter_s : Ascii.ascii := Ascii.ascii_of_nat 115.

(** Number of [%s] placeholders in a text. *)
Fixpoint count_placeholders (s : string) : nat :=
  match s with
  | EmptyString => 0%nat
  | String a rest =>
      if Ascii.eqb a percent_sign
      then match rest with
           | String b rest' =>
               if Ascii.eqb b letter_s
               then S (count_placeholders rest')
               else count_placeholders rest
           | EmptyString => 0%nat
           end
      else count_placeholders rest
  end.

(** Does a text hold a percent sign? *)
Fixpoint has_percent (s : string) : bool :=
  match s with
  | EmptyString => false
  | String a rest => Ascii.eqb a percent_sign || has_percent rest
  end.


Definition is_autocommit_off (ev : event) : bool :=
  match ev with EvAutocommit _ false => true | _ => false end.



(** ** The database's side of DROP TABLE *)












(** * Properties *)

(** Unfolding the monad, and re-associating the trace it builds. *)
Ltac run_client :=
  unfold bind, ret, raise, emit, fetchall, commit, set_autocommit,
    _close_cursor_connection, _close_cursor, _put_connection,
    has_description; simpl.

Ltac flatten_trace := simpl; repeat rewrite <- app_assoc; simpl.

(** ** Traces *)



Lemma executed_app (a b : list event) :
  executed (a ++ b) = (executed a ++ executed b)%list.
Proof.
  induction a as [|ev a IH]; simpl; [reflexivity|].
  destruct ev; simpl; rewrite IH; reflexivity.
Qed.

Lemma executed_getconns (answers : list pool_resp) :
  executed (map EvGetconn answers) = [].
Proof. induction answers; simpl; auto. Qed.


Lemma getconns_only (answers : list pool_resp) :
  forallb is_getconn (map EvGetconn answers) = true.
Proof. induction answers; simpl; auto. Qed.

Lemma getconns_no_rollback (answers : list pool_resp) :
  existsb is_rollback (map EvGetconn answers) = false.
Proof. induction answers; simpl; auto. Qed.


(** ** Connection acquisition *)

Lemma retried_step (r : pool_resp) (rest : list pool_resp) (tr : list event) :
  retried r = true ->
  _get_connection_from (r :: rest) tr
  = _get_connection_from rest (tr ++ [EvGetconn r]).
Proof.
  destruct r as [c| |]; simpl; try reflexivity.
  intros ->. reflexivity.
Qed.

Lemma get_connection_open (pre : list pool_resp) (c : Connection)
    (rest : list pool_resp) (tr : list event) :
  forallb retried pre = true ->
  closed c = 0 ->
  _get_connection_from (pre ++ PoolConn c :: rest) tr
  = (Ret c, {| pool := rest;
               trace := tr ++ map EvGetconn (pre ++ [PoolConn c]) |}).
Proof.
  revert tr. induction pre as [|r pre IH]; intros tr Hpre Hc.
  - simpl. rewrite Hc. reflexivity.
  - simpl in Hpre. apply andb_prop in Hpre as [Hr Hpre].
    change ((r :: pre) ++ PoolConn c :: rest)%list
      with (r :: (pre ++ PoolConn c :: rest))%list.
    rewrite retried_step by exact Hr.
    rewrite IH by assumption.
    simpl. rewrite <- app_assoc. reflexivity.
Qed.

Lemma get_connection_pending (answers : list pool_resp) (tr : list event) :
  forallb retried answers = true ->
  _get_connection_from answers tr
  = (Pending, {| pool := []; trace := tr ++ map EvGetconn answers |}).
Proof.
  revert tr. induction answers as [|r answers IH]; intros tr H.
  - simpl. rewrite app_nil_r. reflexivity.
  - simpl in H. apply andb_prop in H as [Hr H].
    rewrite retried_step by exact Hr.
    rewrite IH by assumption.
    simpl. rewrite <- app_assoc. reflexivity.
Qed.

(** Every list of pool answers either never yields an open connection, or
    splits at the first open one. *)
Lemma pool_split (answers : list pool_resp) :
  (yields_open answers = false /\ forallb retried answers = true)
  \/ (yields_open answers = true
      /\ exists pre c rest,
           answers = (pre ++ PoolConn c :: rest)%list
           /\ forallb retried pre = true /\ closed c = 0).
Proof.
  induction answers as [|r answers IH].
  - left. split; reflexivity.
  - destruct (retried r) eqn:Hr.
    + destruct IH as [[Hy Hall] | [Hy (pre & c & rest & -> & Hpre & Hc)]].
      * left. unfold yields_open in *. simpl. rewrite Hr, Hy, Hall. auto.
      * right. split.
        { unfold yields_open in *. simpl. rewrite Hy. apply orb_true_r. }
        exists (r :: pre), c, rest. simpl. rewrite Hr, Hpre. auto.
    + right. split.
      { unfold yields_open. simpl. rewrite Hr. reflexivity. }
      destruct r as [c| |]; simpl in Hr; try discriminate.
      exists [], c, answers. simpl. repeat split.
      apply negb_false_iff in Hr. apply Z.eqb_eq. exact Hr.
Qed.

(** ** Running a statement *)

Lemma create_cursor_open (self : PostgresConnect) (c : Connection) (w : World) :
  closed c = 0 ->
  _create_cursor self c w
  = (Ret (mkCursor c None [] (-1)),
     {| pool := pool w;
        trace := trace w ++ [EvCursor c (_cursor_factory self)] |}).
Proof.
  intros Hc. unfold _create_cursor. rewrite Hc. run_client.
  destruct (_cursor_factory self); reflexivity.
Qed.

Lemma create_cursor_closed (self : PostgresConnect) (c c' : Connection)
    (rest : list pool_resp) (tr : list event) :
  closed c <> 0 ->
  closed c' = 0 ->
  _create_cursor self c {| pool := PoolConn c' :: rest; trace := tr |}
  = (Ret (mkCursor c' None [] (-1)),
     {| pool := rest;
        trace := tr ++ [EvGetconn (PoolConn c');
                        EvCursor c' (_cursor_factory self)] |}).
Proof.
  intros Hc Hc'. unfold _create_cursor.
  apply Z.eqb_neq in Hc. rewrite Hc. run_client.
  unfold _get_connection. simpl. rewrite Hc'. simpl.
  destruct (_cursor_factory self); flatten_trace; reflexivity.
Qed.

Section Runs.

Variable is_crud : string -> bool.
Variable server : string -> option (list value) -> exec_resp.
Variable self : PostgresConnect.

Lemma execute_with_autocommit_open (c : Connection) (q : string)
    (p : option (list value)) (w : World) :
  closed c = 0 ->
  _execute_with_autocommit server self c q p w
  = (outcome (server q p),
     {| pool := pool w;
        trace := trace w
                 ++ [EvCursor c (_cursor_factory self); EvExecute c q p]
                 ++ match server q p with
                    | ExecRaises _ => []
                    | ExecOk d _ _ => release c d
                    end |}).
Proof.
  intros Hc. unfold _execute_with_autocommit, bind at 1.
  rewrite create_cursor_open by exact Hc.
  unfold cursor_execute, release. run_client.
  destruct (server q p) as [e | d rows n]; simpl.
  - flatten_trace. reflexivity.
  - destruct (truthy_description d); simpl; flatten_trace; reflexivity.
Qed.

Lemma execute_without_autocommit_open (c : Connection) (q : string)
    (p : option (list value)) (w : World) :
  closed c = 0 ->
  _execute_without_autocommit server self c q p w
  = (outcome (server q p),
     {| pool := pool w;
        trace := trace w ++ committed_run self c q p (server q p) |}).
Proof.
  intros Hc. unfold _execute_without_autocommit, bind at 1.
  rewrite create_cursor_open by exact Hc.
  unfold cursor_execute, committed_run, release. run_client.
  destruct (server q p) as [e | d rows n]; simpl.
  - flatten_trace. reflexivity.
  - rewrite Hc. simpl.
    destruct (truthy_description d); simpl; flatten_trace; reflexivity.
Qed.

(** The complete run of [execute_query] once the pool yields an open
    connection [c] after the answers [pre], all of which are retried. *)
Lemma execute_query_run (q : string) (p : option (list value))
    (pre : list pool_resp) (c : Connection) (rest : list pool_resp)
    (tr : list event) :
  forallb retried pre = true ->
  closed c = 0 ->
  execute_query is_crud server self q p
    {| pool := pre ++ PoolConn c :: rest; trace := tr |}
  = (outcome (server q p),
     {| pool := rest;
        trace := tr ++ map EvGetconn (pre ++ [PoolConn c])
                 ++ (if is_crud q
                     then committed_run self c q p (server q p)
                     else autocommit_run self c q p (server q p)) |}).
Proof.
  intros Hpre Hc. unfold execute_query, bind at 1.
  unfold _get_connection. simpl pool. simpl trace.
  rewrite get_connection_open by assumption.
  destruct (is_crud q); unfold negb; cbv iota.
  - rewrite execute_without_autocommit_open by exact Hc.
    simpl. flatten_trace. reflexivity.
  - unfold bind at 1, set_autocommit, emit. simpl.
    rewrite execute_with_autocommit_open by exact Hc.
    unfold autocommit_run. simpl. flatten_trace. reflexivity.
Qed.

(** While the pool yields no open connection the call stays in the
    acquisition loop: nothing but [getconn()] calls happen. *)
Lemma execute_query_pending (q : string) (p : option (list value))
    (w : World) :
  forallb retried (pool w) = true ->
  execute_query is_crud server self q p w
  = (Pending,
     {| pool := []; trace := trace w ++ map EvGetconn (pool w) |}).
Proof.
  intros H. unfold execute_query, bind at 1, _get_connection.
  rewrite get_connection_pending by exact H. reflexivity.
Qed.

Lemma executed_committed_run (c : Connection) (q : string)
    (p : option (list value)) (r : exec_resp) :
  executed (committed_run self c q p r) = [(q, p)].
Proof.
  unfold committed_run, release.
  destruct r as [e | d rows n]; simpl; [reflexivity|].
  destruct (truthy_description d); reflexivity.
Qed.

Lemma executed_autocommit_run (c : Connection) (q : string)
    (p : option (list value)) (r : exec_resp) :
  executed (autocommit_run self c q p r) = [(q, p)].
Proof.
  unfold autocommit_run, release.
  destruct r as [e | d rows n]; simpl; [reflexivity|].
  destruct (truthy_description d); reflexivity.
Qed.

(** In any world, [execute_query] hands exactly its own statement and
    parameters to [cursor.execute], once, if it gets a connection at all. *)
Lemma execute_query_executed (q : string) (p : option (list value))
    (w : World) :
  executed (trace (snd (execute_query is_crud server self q p w)))
  = (executed (trace w)
     ++ (if yields_open (pool w) then [(q, p)] else []))%list.
Proof.
  destruct w as [answers tr].
  destruct (pool_split answers)
    as [[Hy Hall] | [Hy (pre & c & rest & -> & Hpre & Hc)]].
  - rewrite execute_query_pending by exact Hall. simpl.
    rewrite Hy, executed_app, executed_getconns. reflexivity.
  - rewrite execute_query_run by assumption. simpl pool. rewrite Hy. simpl.
    rewrite !executed_app, executed_getconns. simpl.
    destruct (is_crud q);
      [rewrite executed_committed_run | rewrite executed_autocommit_run];
      reflexivity.
Qed.

End Runs.

(** ** Acquisition retries until the pool yields an open connection *)





(** A [RecursionError] raised by the nested call for a closed handle is
    raised inside the [try] block: the bare [except:] catches it and calls
    again, and that call can still come back with a connection. *)
Example closed_handle_retried_after_recursion_error :
  _get_connection_within 2
    [PoolConn (dead_conn 1); PoolConn (dead_conn 2); PoolConn (open_conn 3)] []
  = (Ret (open_conn 3),
     {| pool := [];
        trace := [EvGetconn (PoolConn (dead_conn 1));
                  EvGetconn (PoolConn (dead_conn 2));
                  EvGetconn (PoolConn (open_conn 3))] |}).
Proof. reflexivity. Qed.




(** ** Autocommit or explicit commit *)





(** ** A failing statement *)



(** ** The row helpers look up cursor attributes on a list or on [True] *)

Lemma attribute_lookup_never_returns {A : Type} (m : M query_result)
    (k : query_result -> M A) (w : World) :
  (forall cur w', is_ret (fst (k cur w')) = false) ->
  is_ret (fst ((cur <- m ;; k cur) w)) = false.
Proof.
  intros Hk. unfold bind.
  destruct (m w) as [[cur | e |] w']; simpl; auto.
Qed.

(** C1. [insert] never returns a value: whatever [execute_query] hands back
    is a list or [True], and [insert] looks [fetchone] or [rowcount] up on
    it.  For [insert("t", {"x": 1})] the INSERT is run and the connection
    given back, then [AttributeError] is raised where the count 1 was to be
    returned; with [returning="id"] the same happens with [fetchone] on the
    list of rows. *)
Theorem insert_raises_attribute_error :
  (forall is_crud server self table data returning w,
      is_ret (fst (insert is_crud server self table data returning w)) = false)
  /\ (forall is_crud,
        let r := insert is_crud no_columns client "t" [("x", VInt 1)] None
                   (start [PoolConn (open_conn 1)]) in
        fst r = Raise (AttributeError "bool" "rowcount")
        /\ executed (trace (snd r))
           = [("INSERT INTO t (x) VALUES(%s)", Some [VInt 1])]
        /\ returned (trace (snd r)) = [open_conn 1])
  /\ (forall is_crud,
        let r := insert is_crud one_row_back client "t" [("x", VInt 1)]
                   (Some "id") (start [PoolConn (open_conn 1)]) in
        fst r = Raise (AttributeError "list" "fetchone")
        /\ executed (trace (snd r))
           = [("INSERT INTO t (x) VALUES(%s) RETURNING id", Some [VInt 1])]
        /\ returned (trace (snd r)) = [open_conn 1]).
Proof.
  repeat split.
  - intros. unfold insert. apply attribute_lookup_never_returns.
    intros cur w'. destruct (truthy_str returning); reflexivity.
  - unfold insert, bind.
    rewrite (execute_query_run is_crud no_columns client _ _ [] (open_conn 1) [] [])
      by reflexivity.
    reflexivity.
  - unfold insert, bind.
    rewrite (execute_query_run is_crud no_columns client _ _ [] (open_conn 1) [] [])
      by reflexivity.
    simpl. destruct (is_crud _); reflexivity.
  - unfold insert, bind.
    rewrite (execute_query_run is_crud no_columns client _ _ [] (open_conn 1) [] [])
      by reflexivity.
    simpl. destruct (is_crud _); reflexivity.
  - unfold insert, bind.
    rewrite (execute_query_run is_crud one_row_back client _ _ [] (open_conn 1) [] [])
      by reflexivity.
    reflexivity.
  - unfold insert, bind.
    rewrite (execute_query_run is_crud one_row_back client _ _ [] (open_conn 1) [] [])
      by reflexivity.
    simpl. destruct (is_crud _); reflexivity.
  - unfold insert, bind.
    rewrite (execute_query_run is_crud one_row_back client _ _ [] (open_conn 1) [] [])
      by reflexivity.
    simpl. destruct (is_crud _); reflexivity.
Qed.

(** C6. [update("table", {"x": 1}, where=("id = %s", [3]))] hands
    [UPDATE table SET x=%s WHERE id = %s] with the parameters [1, 3] to the
    cursor, and then raises [AttributeError] on [True.rowcount] where the
    affected-row count was to be returned; no call of [update] returns a
    value. *)
Theorem update_example_raises_attribute_error :
  (forall is_crud,
      let r := update is_crud no_columns client "table" [("x", VInt 1)]
                 (Some (Where2 "id = %s" [VInt 3])) None
                 (start [PoolConn (open_conn 1)]) in
      executed (trace (snd r))
      = [("UPDATE table SET x=%s WHERE id = %s", Some [VInt 1; VInt 3])]
      /\ fst r = Raise (AttributeError "bool" "rowcount"))
  /\ (forall is_crud server self table data where_ returning w,
        is_ret (fst (update is_crud server self table data where_ returning w))
        = false).
Proof.
  repeat split.
  - unfold update, bind.
    rewrite (execute_query_run is_crud no_columns client _ _ [] (open_conn 1) [] [])
      by reflexivity.
    simpl. destruct (is_crud _); reflexivity.
  - unfold update, bind.
    rewrite (execute_query_run is_crud no_columns client _ _ [] (open_conn 1) [] [])
      by reflexivity.
    reflexivity.
  - intros. unfold update. apply attribute_lookup_never_returns.
    intros cur w'. destruct (truthy_str returning); reflexivity.
Qed.

(** ** What [update] and [delete] pass on for a one-element [where] *)

Lemma attribute_lookup_keeps_world {A : Type} (m : M query_result)
    (k : query_result -> M A) (w : World) :
  (forall cur w', snd (k cur w') = w') ->
  snd ((cur <- m ;; k cur) w) = snd (m w).
Proof.
  intros Hk. unfold bind.
  destruct (m w) as [[cur | e |] w']; simpl; auto.
Qed.


(** ** DROP TABLE IF EXISTS *)

Lemma append_empty (s : string) : s ++ "" = s.
Proof. induction s as [|a s IH]; simpl; [reflexivity | now rewrite IH]. Qed.











(** ** Connections that are never given back *)

(** On the direct path (the first connection is open and the statement
    completes) the one connection acquired is given back once. *)
Lemma execute_query_gives_back (is_crud : string -> bool)
    (server : string -> option (list value) -> exec_resp)
    (self : PostgresConnect) (q : string) (p : option (list value))
    (c : Connection) (rest : list pool_resp)
    (d : option (list string)) (rows : list row) (n : Z) :
  closed c = 0 ->
  server q p = ExecOk d rows n ->
  let w' := snd (execute_query is_crud server self q p
                   (start (PoolConn c :: rest))) in
  acquired (trace w') = [c] /\ returned (trace w') = [c].
Proof.
  intros Hc Hok. unfold start.
  change (PoolConn c :: rest) with ([] ++ PoolConn c :: rest)%list.
  rewrite execute_query_run by auto.
  rewrite Hok. simpl.
  unfold committed_run, autocommit_run, release.
  destruct (is_crud q), (truthy_description d); simpl; auto.
Qed.

(** C4. Two calls that leave a connection with the client.  When the pool
    first hands out a closed handle, [execute] drops that handle and goes
    on with the next one: the closed handle was acquired and is never
    given back.  When the cursor has to be created on a freshly acquired
    connection because the one passed in is closed, the call gives back
    the closed one and keeps the fresh one. *)
Theorem closed_handles_are_not_given_back :
  forall (is_crud : string -> bool),
    (let r := execute_query is_crud no_columns client "SELECT 1" None
                (start [PoolConn (dead_conn 1); PoolConn (open_conn 2)]) in
     is_ret (fst r) = true
     /\ acquired (trace (snd r)) = [dead_conn 1; open_conn 2]
     /\ returned (trace (snd r)) = [open_conn 2]
     /\ times (dead_conn 1) (returned (trace (snd r))) = 0%nat)
    /\ (let r := _execute_with_autocommit no_columns client (dead_conn 1)
                   "SELECT 1" None (start [PoolConn (open_conn 2)]) in
        is_ret (fst r) = true
        /\ acquired (trace (snd r)) = [open_conn 2]
        /\ returned (trace (snd r)) = [dead_conn 1]
        /\ times (open_conn 2) (returned (trace (snd r))) = 0%nat).
Proof.
  intros is_crud. split.
  - rewrite (execute_query_run is_crud no_columns client _ _
               [PoolConn (dead_conn 1)] (open_conn 2) [] [])
      by reflexivity.
    simpl. destruct (is_crud _); simpl; repeat split.
  - repeat split.
Qed.

(** ** The text [select] builds *)

(** C2. [select("table", fields=["a","b"], where=("a > %s", [5]))] hands the
    cursor the text [SELECT a, b FROM table WHERE a > %s] and no parameters
    at all: the list [5] of the [where] tuple is not passed on, so the
    placeholder stays unbound where the statement was to run with [5].
    [delete] and [update], given the same [where], do pass [5] on. *)
Theorem select_example_drops_parameters :
  forall (is_crud : string -> bool)
         (server : string -> option (list value) -> exec_resp),
    let where_ := Some (Where2 "a > %s" [VInt 5]) in
    let w := start [PoolConn (open_conn 1)] in
    executed (trace (snd (select is_crud server client "table" ["a"; "b"]
                            where_ None None None w)))
    = [("SELECT a, b FROM table WHERE a > %s", None)]
    /\ executed (trace (snd (delete is_crud server client "table" where_
                               None w)))
       = [("DELETE FROM table WHERE a > %s", Some [VInt 5])]
    /\ executed (trace (snd (update is_crud server client "table"
                               [("a", VInt 0)] where_ None w)))
       = [("UPDATE table SET a=%s WHERE a > %s", Some [VInt 0; VInt 5])].
Proof.
  intros is_crud server where_ w. subst where_ w. repeat split.
  - unfold select. rewrite execute_query_executed. reflexivity.
  - unfold delete. rewrite attribute_lookup_keeps_world.
    + rewrite execute_query_executed. reflexivity.
    + intros cur w'. reflexivity.
  - unfold update. rewrite attribute_lookup_keeps_world.
    + rewrite execute_query_executed. reflexivity.
    + intros cur w'. reflexivity.
Qed.

(** C8, as stated, fails: with no fields, the statement built for table [t]
    does not begin with [SELECT * FROM t]. *)
Lemma select_empty_fields_counterexample :
  ~ (exists tail,
        select_sql "t" [] None None None None = "SELECT * FROM t" ++ tail).
Proof. intros [tail H]. cbn in H. discriminate H. Qed.

(** C8, amended. With an empty [fields] the field list of the statement is
    empty: the text is [SELECT  FROM <table>] followed by the clauses that
    were asked for, and that is the text [select] hands to the cursor. *)
Theorem select_empty_fields :
  forall (is_crud : string -> bool)
         (server : string -> option (list value) -> exec_resp)
         (self : PostgresConnect) (table : string)
         (where_ : option where_t) (order : option order_t)
         (limit offset : option Z) (w : World),
    select_sql table [] where_ order limit offset
    = ("SELECT  FROM " ++ table)
        ++ _where where_ ++ _order order ++ _limit limit ++ _offset offset
    /\ executed (trace (snd (select is_crud server self table [] where_ order
                               limit offset w)))
       = (executed (trace w)
          ++ (if yields_open (pool w)
              then [(select_sql table [] where_ order limit offset, None)]
              else []))%list.
Proof.
  intros. split.
  - reflexivity.
  - unfold select. apply execute_query_executed.
Qed.


(** * Further properties of the helpers *)

(** ** TRUNCATE and CREATE TABLE *)






(** ** DELETE, UPDATE and INSERT in general *)




Lemma join_cons_cons (sep x y : string) (l : list string) :
  join sep (x :: y :: l) = x ++ sep ++ join sep (y :: l).
Proof. reflexivity. Qed.



(** ** The SET clause *)

Lemma append_assoc (a b c : string) : (a ++ b) ++ c = a ++ b ++ c.
Proof. induction a as [|x a IH]; simpl; [reflexivity | now rewrite IH]. Qed.

Lemma format_update_nonempty (k : string) (ks : list string) :
  join "=%s," (k :: ks) ++ "=%s"
  = join "," (map (fun k => k ++ "=%s") (k :: ks)).
Proof.
  revert k. induction ks as [|k' ks IH]; intros k; [reflexivity|].
  rewrite join_cons_cons, !append_assoc, IH.
  change (map (fun k0 => k0 ++ "=%s") (k :: k' :: ks))
    with ((k ++ "=%s") :: map (fun k0 => k0 ++ "=%s") (k' :: ks)).
  simpl map. rewrite join_cons_cons, append_assoc. reflexivity.
Qed.

(** X6. For a non-empty [data], the SET clause built by [_format_update] is
    the list of assignments [col=%s], one per key in the dict's order,
    separated by commas.  For an empty [data] it is the lone text [=%s]: an
    assignment without a column. *)
Theorem format_update_assignments :
  forall (data : dict),
    data <> [] ->
    _format_update data = join "," (map (fun k => k ++ "=%s") (keys data))
    /\ _format_update [] = "=%s".
Proof.
  intros data Hne. split; [|reflexivity].
  destruct data as [|[k v] data]; [contradiction|].
  unfold _format_update, keys. simpl map at 1.
  rewrite format_update_nonempty. reflexivity.
Qed.

Lemma format_update_assignments_witness :
  _format_update [("name", VStr "Ann"); ("age", VInt 41)] = "name=%s,age=%s".
Proof.
  apply (proj1 (format_update_assignments
                  [("name", VStr "Ann"); ("age", VInt 41)]
                  ltac:(discriminate))).
Defined.

Lemma count_placeholders_skip (k rest : string) :
  has_percent k = false ->
  count_placeholders (k ++ rest) = count_placeholders rest.
Proof.
  induction k as [|a k IH]; intros H; [reflexivity|].
  simpl in H. apply orb_false_iff in H as [Ha Hk].
  simpl. rewrite Ha. apply IH. exact Hk.
Qed.

Lemma count_placeholders_assignments (ks : list string) :
  forallb (fun k => negb (has_percent k)) ks = true ->
  count_placeholders (join "," (map (fun k => k ++ "=%s") ks)) = length ks.
Proof.
  induction ks as [|k ks IH]; intros H; [reflexivity|].
  simpl in H. apply andb_prop in H as [Hk Hks].
  apply negb_true_iff in Hk.
  destruct ks as [|k' ks].
  - simpl. rewrite count_placeholders_skip by exact Hk. reflexivity.
  - change (map (fun k0 => k0 ++ "=%s") (k :: k' :: ks))
      with ((k ++ "=%s") :: (k' ++ "=%s") :: map (fun k0 => k0 ++ "=%s") ks).
    rewrite join_cons_cons, append_assoc.
    rewrite count_placeholders_skip by exact Hk.
    change (count_placeholders
              ("=%s" ++ "," ++ join "," ((k' ++ "=%s") :: map (fun k0 => k0 ++ "=%s") ks)))
      with (S (count_placeholders
                 (join "," ((k' ++ "=%s") :: map (fun k0 => k0 ++ "=%s") ks)))).
    simpl length. f_equal. apply IH. exact Hks.
Qed.

(** X7. When no column name holds a percent sign and [data] is not empty,
    the SET clause holds exactly as many [%s] placeholders as [data] has
    values.  For an empty [data] the clause holds one placeholder while
    there is no value to fill it. *)
Theorem format_update_placeholders :
  forall (data : dict),
    data <> [] ->
    forallb (fun k => negb (has_percent k)) (keys data) = true ->
    count_placeholders (_format_update data) = length (values data)
    /\ count_placeholders (_format_update []) = 1%nat
    /\ length (values []) = 0%nat.
Proof.
  intros data Hne Hkeys. repeat split.
  destruct data as [|[k v] data]; [contradiction|].
  unfold _format_update. unfold keys in *. simpl map in *.
  rewrite format_update_nonempty.
  rewrite count_placeholders_assignments by exact Hkeys.
  unfold values. simpl. rewrite !length_map. reflexivity.
Qed.

Lemma format_update_placeholders_witness :
  count_placeholders (_format_update [("name", VStr "Ann"); ("age", VInt 41)])
  = 2%nat.
Proof.
  apply (proj1 (format_update_placeholders
                  [("name", VStr "Ann"); ("age", VInt 41)]
                  ltac:(discriminate) eq_refl)).
Defined.

(** ** SELECT in general *)


(** X9. The text of a SELECT is [SELECT fields FROM table] followed, in
    this order and each introduced by one space, by the WHERE clause, the
    ORDER BY clause (column, then direction when there is one), the LIMIT
    clause and the OFFSET clause, each present exactly when its argument is;
    a limit of 0 is left out like a missing limit, and an offset of 0 like a
    missing offset, whatever the other arguments are. *)
Theorem select_clauses :
  forall (table : string) (fields : list string)
         (where_ : option where_t) (order : option order_t)
         (limit offset : option Z),
    select_sql table fields where_ order limit offset
    = "SELECT " ++ join ", " fields ++ " FROM " ++ table
        ++ match where_ with
           | Some (Where1 fragment) => " WHERE " ++ fragment
           | Some (Where2 fragment _) => " WHERE " ++ fragment
           | None => ""
           end
        ++ match order with
           | Some (Order1 col) => " ORDER BY " ++ col
           | Some (Order2 col dir) => " ORDER BY " ++ col ++ " " ++ dir
           | None => ""
           end
        ++ match limit with
           | Some n => if n =? 0 then "" else " LIMIT " ++ fmt_d n
           | None => ""
           end
        ++ match offset with
           | Some m => if m =? 0 then "" else " OFFSET " ++ fmt_d m
           | None => ""
           end
    /\ select_sql table fields where_ order (Some 0) offset
       = select_sql table fields where_ order None offset
    /\ select_sql table fields where_ order limit (Some 0)
       = select_sql table fields where_ order limit None
    /\ (forall n,
          n <> 0 ->
          select_sql table fields None None (Some n) None
          = "SELECT " ++ join ", " fields ++ " FROM " ++ table
              ++ " LIMIT " ++ fmt_d n)
    /\ (forall m,
          m <> 0 ->
          select_sql table fields None None None (Some m)
          = "SELECT " ++ join ", " fields ++ " FROM " ++ table
              ++ " OFFSET " ++ fmt_d m)
    /\ (forall col,
          select_sql table fields None (Some (Order1 col)) None None
          = "SELECT " ++ join ", " fields ++ " FROM " ++ table
              ++ " ORDER BY " ++ col)
    /\ (forall fragment col dir n m,
          n <> 0 ->
          m <> 0 ->
          select_sql table fields (Some (Where1 fragment))
            (Some (Order2 col dir)) (Some n) (Some m)
          = "SELECT " ++ join ", " fields ++ " FROM " ++ table
              ++ " WHERE " ++ fragment ++ " ORDER BY " ++ col ++ " " ++ dir
              ++ " LIMIT " ++ fmt_d n ++ " OFFSET " ++ fmt_d m)
    /\ select_sql table fields None None None None
       = "SELECT " ++ join ", " fields ++ " FROM " ++ table.
Proof.
  intros table fields where_ order limit offset.
  assert (Hall : forall w o l f,
    select_sql table fields w o l f
    = "SELECT " ++ join ", " fields ++ " FROM " ++ table
        ++ match w with
           | Some (Where1 fragment) => " WHERE " ++ fragment
           | Some (Where2 fragment _) => " WHERE " ++ fragment
           | None => ""
           end
        ++ match o with
           | Some (Order1 col) => " ORDER BY " ++ col
           | Some (Order2 col dir) => " ORDER BY " ++ col ++ " " ++ dir
           | None => ""
           end
        ++ match l with
           | Some n => if n =? 0 then "" else " LIMIT " ++ fmt_d n
           | None => ""
           end
        ++ match f with
           | Some m => if m =? 0 then "" else " OFFSET " ++ fmt_d m
           | None => ""
           end).
  { intros w o l f.
    unfold select_sql, _where, _order, _limit, _offset, truthy_int.
    destruct w as [[fragment | fragment ps]|], o as [[col | col dir]|],
             l as [n|], f as [m|];
      simpl; try destruct (n =? 0); try destruct (m =? 0); simpl;
      repeat (rewrite !append_assoc; simpl); reflexivity. }
  split; [apply Hall|].
  split; [rewrite !Hall; reflexivity|].
  split; [rewrite !Hall; reflexivity|].
  split.
  { intros n Hn. rewrite Hall. apply Z.eqb_neq in Hn. rewrite Hn.
    simpl. rewrite append_empty. reflexivity. }
  split.
  { intros m Hm. rewrite Hall. apply Z.eqb_neq in Hm. rewrite Hm.
    reflexivity. }
  split.
  { intros col. rewrite Hall. simpl. rewrite append_empty. reflexivity. }
  split.
  { intros fragment col dir n m Hn Hm. rewrite Hall.
    apply Z.eqb_neq in Hn, Hm. rewrite Hn, Hm.
    repeat (rewrite !append_assoc; simpl). reflexivity. }
  rewrite Hall. simpl. rewrite !append_empty. reflexivity.
Qed.

Lemma select_clauses_witness :
  select_sql "orders" ["id"; "total"] (Some (Where1 "total > 10"))
    (Some (Order2 "total" "DESC")) (Some 5) (Some 20)
  = "SELECT id, total FROM orders WHERE total > 10 ORDER BY total DESC LIMIT 5 OFFSET 20"
  /\ select_sql "orders" ["id"] None None (Some 5) None
     = "SELECT id FROM orders LIMIT 5"
  /\ select_sql "orders" ["id"] None None None (Some 20)
     = "SELECT id FROM orders OFFSET 20".
Proof.
  split; [|split].
  - apply (proj1 (proj2 (proj2 (proj2 (proj2 (proj2 (proj2
             (select_clauses "orders" ["id"; "total"] None None None None)))))))
             "total > 10" "total" "DESC" 5 20);
      discriminate.
  - apply (proj1 (proj2 (proj2 (proj2
             (select_clauses "orders" ["id"] None None None None))))
             5).
    discriminate.
  - apply (proj1 (proj2 (proj2 (proj2 (proj2
             (select_clauses "orders" ["id"] None None None None)))))
             20).
    discriminate.
Defined.



(** ** Which connections come back *)









Lemma run_never_undoes (self : PostgresConnect) (c : Connection) (q : string)
    (p : option (list value)) (r : exec_resp) :
  existsb is_rollback (committed_run self c q p r) = false
  /\ existsb is_autocommit_off (committed_run self c q p r) = false
  /\ existsb is_rollback (autocommit_run self c q p r) = false
  /\ existsb is_autocommit_off (autocommit_run self c q p r) = false.
Proof.
  unfold committed_run, autocommit_run, release.
  destruct r as [e | d rows n]; simpl; [auto|].
  destruct (truthy_description d); simpl; auto.
Qed.

Lemma getconns_no_autocommit_off (answers : list pool_resp) :
  existsb is_autocommit_off (map EvGetconn answers) = false.
Proof. induction answers; simpl; auto. Qed.

(** X13. In every world, whatever the classifier and the database do, a call
    of [execute_query] only adds to the trace, and what it adds holds no
    rollback and never switches autocommit off: a connection that ran a
    statement in autocommit mode goes back to the pool in that mode. *)
Theorem execute_query_never_undoes :
  forall (is_crud : string -> bool)
         (server : string -> option (list value) -> exec_resp)
         (self : PostgresConnect) (q : string) (p : option (list value))
         (w : World),
  exists evs,
    trace (snd (execute_query is_crud server self q p w))
    = (trace w ++ evs)%list
    /\ existsb is_rollback evs = false
    /\ existsb is_autocommit_off evs = false.
Proof.
  intros is_crud server self q p [answers tr].
  destruct (pool_split answers)
    as [[_ Hall] | [_ (pre & c & rest & -> & Hpre & Hc)]].
  - rewrite execute_query_pending by exact Hall. simpl.
    exists (map EvGetconn answers). repeat split.
    + apply getconns_no_rollback.
    + apply getconns_no_autocommit_off.
  - rewrite execute_query_run by assumption. simpl.
    eexists. split; [reflexivity|].
    destruct (run_never_undoes self c q p (server q p))
      as (H1 & H2 & H3 & H4).
    rewrite !existsb_app, getconns_no_rollback, getconns_no_autocommit_off.
    destruct (is_crud q); simpl; auto.
Qed.

(** ** Cursors *)

Lemma create_cursor_reacquires (self : PostgresConnect) (c c' : Connection)
    (pre rest : list pool_resp) (tr : list event) :
  closed c <> 0 ->
  forallb retried pre = true ->
  closed c' = 0 ->
  _create_cursor self c {| pool := pre ++ PoolConn c' :: rest; trace := tr |}
  = (Ret (mkCursor c' None [] (-1)),
     {| pool := rest;
        trace := tr ++ map EvGetconn (pre ++ [PoolConn c'])
                 ++ [EvCursor c' (_cursor_factory self)] |}).
Proof.
  intros Hc Hpre Hc'. unfold _create_cursor.
  apply Z.eqb_neq in Hc. rewrite Hc. unfold negb, bind at 1.
  unfold _get_connection. simpl pool. simpl trace.
  rewrite get_connection_open by assumption.
  run_client.
  destruct (_cursor_factory self); flatten_trace; reflexivity.
Qed.

(** X14. A cursor is only ever created on an open connection: whenever
    [_create_cursor] returns, in any world and for any connection passed
    in, the connection of the cursor has [closed == 0]; it is the one passed
    in when that one is open. *)
Theorem cursor_is_on_open_connection :
  forall (self : PostgresConnect) (connection : Connection) (w : World)
         (cur : Cursor) (w' : World),
    _create_cursor self connection w = (Ret cur, w') ->
    closed (cur_conn cur) = 0
    /\ (closed connection = 0 -> cur_conn cur = connection).
Proof.
  intros self connection [answers tr] cur w' H.
  destruct (Z.eq_dec (closed connection) 0) as [Hopen | Hclosed].
  - rewrite create_cursor_open in H by exact Hopen.
    inversion H; subst. simpl. auto.
  - destruct (pool_split answers)
      as [[_ Hall] | [_ (pre & c' & rest & -> & Hpre & Hc')]].
    + unfold _create_cursor in H.
      apply Z.eqb_neq in Hclosed. rewrite Hclosed in H.
      unfold negb, bind at 1, _get_connection in H. simpl in H.
      rewrite get_connection_pending in H by exact Hall. discriminate H.
    + rewrite create_cursor_reacquires in H by assumption.
      inversion H; subst. simpl. split; [exact Hc' | contradiction].
Qed.

Lemma cursor_is_on_open_connection_witness :
  closed (cur_conn (mkCursor (open_conn 2) None [] (-1))) = 0.
Proof.
  apply (proj1 (cursor_is_on_open_connection client (dead_conn 1)
                  (start [PoolRaises "exhausted"; PoolConn (open_conn 2)])
                  (mkCursor (open_conn 2) None [] (-1))
                  {| pool := [];
                     trace := [EvGetconn (PoolRaises "exhausted");
                               EvGetconn (PoolConn (open_conn 2));
                               EvCursor (open_conn 2) None] |}
                  eq_refl)).
Defined.

(** X15. The cursor class follows the [type_cursor] given at construction:
    none for the empty string, [DictCursor] for exactly ['dict'], and
    [NamedTupleCursor] for every other non-empty text, whatever it says;
    that class is what [_create_cursor] asks the connection for. *)
Theorem cursor_class_follows_type_cursor :
  forall (database username password schema host : string)
         (port min_connection max_connection : Z) (type_cursor : string)
         (c : Connection) (w : World),
    type_cursor <> "" ->
    type_cursor <> "dict" ->
    closed c = 0 ->
    let make := init database username password schema host port
                  min_connection max_connection in
    snd (_create_cursor (make type_cursor) c w)
    = {| pool := pool w;
         trace := trace w ++ [EvCursor c (Some NamedTupleCursor)] |}
    /\ snd (_create_cursor (make "dict") c w)
       = {| pool := pool w;
            trace := trace w ++ [EvCursor c (Some DictCursor)] |}
    /\ snd (_create_cursor (make "") c w)
       = {| pool := pool w; trace := trace w ++ [EvCursor c None] |}.
Proof.
  intros database username password schema host port min_connection
         max_connection type_cursor c w Hne Hnd Hc make.
  subst make. rewrite !create_cursor_open by exact Hc. simpl.
  repeat split.
  apply String.eqb_neq in Hnd.
  destruct type_cursor as [|a s]; [contradiction|].
  rewrite Hnd. reflexivity.
Qed.

Lemma cursor_class_follows_type_cursor_witness :
  snd (_create_cursor
         (init "shop" "app" "secret" "public" "127.0.0.1" 5432 1 20 "default")
         (open_conn 1) (start []))
  = {| pool := []; trace := [EvCursor (open_conn 1) (Some NamedTupleCursor)] |}.
Proof.
  apply (proj1 (cursor_class_follows_type_cursor
                  "shop" "app" "secret" "public" "127.0.0.1" 5432 1 20
                  "default" (open_conn 1) (start [])
                  ltac:(discriminate) ltac:(discriminate) eq_refl)).
Defined.



